(** * libmyrtx: the Sphinx configuration module [docs/source/conf.py]

    The module is a straight-line Python script: three [import]
    statements followed by assignments to module-level names.  It is
    embedded as a computation in a small monad that threads the module
    namespace and a log of what was executed, reads the interpreter's
    environment, and can raise the exceptions the statements can raise. *)

From stdpp Require Import gmap strings list fin_maps.
From Stdlib Require Import ZArith.

Set Warnings "-register-all".

Local Open Scope string_scope.
Local Open Scope Z_scope.

(** ** Python values occurring in the module *)

(** A Python [str] is kept as the string of its UTF-8 bytes.  Every
    dictionary of the module has string keys and is written as a display,
    so it is kept as the list of its items in insertion order. *)
Inductive value : Type :=
| VNone
| VBool (b : bool)
| VInt (z : Z)
| VStr (s : string)
| VList (items : list value)
| VTuple (items : list value)
| VDict (items : list (string * value))
| VModule (name : string).

(** [d[k]] for a dictionary display: of several items with the same key
    the last one wins. *)
Fixpoint dict_get (k : string) (items : list (string * value)) : option value :=
  match items with
  | [] => None
  | (k', v) :: rest =>
      match dict_get k rest with
      | Some v' => Some v'
      | None => if String.eqb k k' then Some v else None
      end
  end.

Definition dict_keys (items : list (string * value)) : list string :=
  map fst items.

Definition dict_values (items : list (string * value)) : list value :=
  map snd items.

Definition is_str (v : value) : bool :=
  match v with VStr _ => true | _ => false end.

Definition is_bool (v : value) : bool :=
  match v with VBool _ => true | _ => false end.

Definition is_int (v : value) : bool :=
  match v with VInt _ => true | _ => false end.

(** ** The interpreter's environment *)

(** What the module reads from outside itself: which modules [import]
    finds, and what [sphinx_rtd_theme.get_html_theme_path()] returns
    (the package is not part of the repository, so its result is a
    parameter of the environment). *)
Record World : Type := {
  installed : gset string;
  get_html_theme_path : value
}.

Inductive exn : Type :=
| ModuleNotFoundError (name : string)
| NameError (name : string)
| AttributeError (obj attr : string).

(** What executing a statement leaves in the log. *)
Inductive event : Type :=
| EImport (name : string)
| ECall (obj attr : string)
| EAssign (name : string).

Record State : Type := {
  globals : gmap string value;
  trace : list event
}.

Definition init : State := {| globals := ∅; trace := [] |}.

Definition log (e : event) (st : State) : State :=
  {| globals := globals st; trace := trace st ++ [e] |}.

Definition bind_name (x : string) (v : value) (st : State) : State :=
  {| globals := <[x := v]> (globals st); trace := trace st |}.

(** ** The monad of module execution *)

Definition M (A : Type) : Type := World → State → exn + (A * State).

#[global] Instance M_ret : MRet M := λ A a _ st, inr (a, st).

#[global] Instance M_bind : MBind M :=
  λ A B k c w st,
    match c w st with
    | inl e => inl e
    | inr (a, st') => k a w st'
    end.

Definition raise {A} (e : exn) : M A := λ _ _, inl e.

Definition get : M State := λ _ st, inr (st, st).

Definition put (st : State) : M unit := λ _ _, inr (tt, st).

Definition ask : M World := λ w st, inr (w, st).

(** [import name] *)
Definition import_ (name : string) : M unit :=
  w ← ask;
  if bool_decide (name ∈ installed w)
  then st ← get; put (bind_name name (VModule name) (log (EImport name) st))
  else raise (ModuleNotFoundError name).

(** [name = e] *)
Definition assign (name : string) (e : M value) : M unit :=
  v ← e;
  st ← get;
  put (bind_name name v (log (EAssign name) st)).

(** A display of constants. *)
Definition lit (v : value) : M value := mret v.

(** The attributes of the imported modules that the script calls. *)
Definition module_attr (w : World) (m attr : string) : option value :=
  if String.eqb m "sphinx_rtd_theme" && String.eqb attr "get_html_theme_path"
  then Some (get_html_theme_path w)
  else None.

(** [obj.attr()] for a module-level name [obj]. *)
Definition call_attr (obj attr : string) : M value :=
  w ← ask;
  st ← get;
  match globals st !! obj with
  | Some (VModule m) =>
      match module_attr w m attr with
      | Some v => put (log (ECall obj attr) st);; mret v
      | None => raise (AttributeError obj attr)
      end
  | Some _ => raise (AttributeError obj attr)
  | None => raise (NameError obj)
  end.

(** ** The module *)

Definition conf : M unit :=
  (import_ "os" ;;
   import_ "sys" ;;
   import_ "sphinx_rtd_theme" ;;
   assign "project" (lit (VStr "libmyrtx")) ;;
   assign "copyright" (lit (VStr "2025, Mike Großmann")) ;;
   assign "author" (lit (VStr "libmyrtx Contributors")) ;;
   assign "version" (lit (VStr "0.1.0")) ;;
   assign "release" (lit (VStr "0.1.0")) ;;
   assign "extensions" (lit (VList [
     VStr "sphinx.ext.autodoc";
     VStr "sphinx.ext.viewcode";
     VStr "sphinx.ext.todo";
     VStr "sphinx.ext.coverage";
     VStr "sphinx.ext.mathjax";
     VStr "sphinx.ext.ifconfig";
     VStr "sphinx.ext.githubpages";
     VStr "sphinx_rtd_theme";
     VStr "breathe" ])) ;;
   assign "templates_path" (lit (VList [VStr "_templates"])) ;;
   assign "exclude_patterns" (lit (VList [])) ;;
   assign "html_theme" (lit (VStr "sphinx_rtd_theme")) ;;
   assign "html_theme_path"
     (p ← call_attr "sphinx_rtd_theme" "get_html_theme_path";
      mret (VList [p])) ;;
   assign "html_static_path" (lit (VList [VStr "_static"])) ;;
   assign "html_logo" (lit VNone) ;;
   assign "html_favicon" (lit VNone) ;;
   assign "html_theme_options" (lit (VDict [
     ("logo_only", VBool false);
     ("display_version", VBool true);
     ("prev_next_buttons_location", VStr "bottom");
     ("style_external_links", VBool false);
     ("collapse_navigation", VBool false);
     ("sticky_navigation", VBool true);
     ("navigation_depth", VInt 4);
     ("includehidden", VBool true);
     ("titles_only", VBool false) ])) ;;
   assign "breathe_projects" (lit (VDict [
     ("libmyrtx", VStr "../doxygen_output/xml/") ])) ;;
   assign "breathe_default_project" (lit (VStr "libmyrtx")) ;;
   assign "breathe_default_members" (lit (VTuple [
     VStr "members"; VStr "undoc-members" ]))).

(** Running the module in a fresh namespace. *)
Definition run (w : World) : exn + (unit * State) := conf w init.

(** The value the module gives to a configuration variable. *)
Definition config (w : World) (x : string) : option value :=
  match run w with
  | inr (_, st) => globals st !! x
  | inl _ => None
  end.

(** The modules the script imports, and whether the environment has
    them all. *)
Definition required_modules : list string := ["os"; "sys"; "sphinx_rtd_theme"].

Definition importable (w : World) : bool :=
  forallb (λ m, bool_decide (m ∈ installed w)) required_modules.




(** An environment with the imported modules and nothing else. *)
Definition w0 : World :=
  {| installed := list_to_set required_modules;
     get_html_theme_path := VStr "/usr/lib/python3/site-packages" |}.

(** The state the module ends in when its imports succeed. *)
Definition final (w : World) : State :=
  match run {| installed := list_to_set required_modules;
               get_html_theme_path := get_html_theme_path w |} with
  | inr (_, st) => st
  | inl _ => init
  end.

(** The first imported module the environment lacks, if any. *)
Definition first_missing (w : World) : option string :=
  find (λ m, negb (bool_decide (m ∈ installed w))) required_modules.

(** Two environments the script cannot tell apart: they agree on which
    of the imported modules exist and on the theme directory. *)
Definition same_modules (w1 w2 : World) : bool :=
  forallb (λ m, Bool.eqb (bool_decide (m ∈ installed w1))
                         (bool_decide (m ∈ installed w2)))
          required_modules.

Definition same_env (w1 w2 : World) : Prop :=
  same_modules w1 w2 = true ∧
  get_html_theme_path w1 = get_html_theme_path w2.


(** An environment that, beyond the imported modules, has Sphinx and
    Breathe installed and keeps the theme elsewhere. *)
Definition w1 : World :=
  {| installed := list_to_set (required_modules ++ ["sphinx"; "breathe"]);
     get_html_theme_path := VStr "/opt/venv/lib/python3.12/site-packages" |}.

(** Same theme directory as [w0], more modules installed. *)
Definition w0' : World :=
  {| installed := list_to_set (required_modules ++ ["sphinx"; "breathe"]);
     get_html_theme_path := get_html_theme_path w0 |}.

(** ** The names the documentation contract singles out *)

Definition required_metadata : list string :=
  ["project"; "author"; "version"; "release"].

Inductive option_kind : Type := KFlag | KEnum | KInt.

Definition has_kind (k : option_kind) (v : value) : bool :=
  match k with
  | KFlag => is_bool v
  | KEnum => is_str v
  | KInt => is_int v
  end.

(** The nine theme options: logo-only flag, version-display flag,
    navigation button placement, external-link styling flag,
    navigation-collapse flag, sticky-navigation flag, navigation depth,
    hidden-item inclusion flag, titles-only flag. *)
Definition theme_option_kinds : list (string * option_kind) :=
  [ ("logo_only", KFlag);
    ("display_version", KFlag);
    ("prev_next_buttons_location", KEnum);
    ("style_external_links", KFlag);
    ("collapse_navigation", KFlag);
    ("sticky_navigation", KFlag);
    ("navigation_depth", KInt);
    ("includehidden", KFlag);
    ("titles_only", KFlag) ].

Definition scalar_option (v : value) : bool :=
  is_bool v || is_str v || is_int v.

(** An item of the theme-option dictionary against its expected name
    and kind. *)
Definition option_matches (item : string * value) (o : string * option_kind) : Prop :=
  item.1 = o.1 ∧ has_kind o.2 item.2 = true.

(** ** Execution in a namespace that is not empty *)

(** [conf w st] is the script executed in a namespace [st] that already
    holds names; [run_twice] executes it again over the namespace its
    own first execution left. *)
Definition run_twice (w : World) : exn + (unit * State) :=
  (conf ;; conf) w init.



(** Closed goals about the final namespace are settled by running the
    module. *)
Ltac by_evaluation := vm_compute; reflexivity.

(** * Properties *)

(** ** Execution of the module *)

Lemma importable_inv w :
  importable w = true →
  bool_decide ("os" ∈ installed w) = true ∧
  bool_decide ("sys" ∈ installed w) = true ∧
  bool_decide ("sphinx_rtd_theme" ∈ installed w) = true.
Proof.
  unfold importable, required_modules. cbn [forallb].
  rewrite !andb_true_iff. tauto.
Qed.

Lemma run_importable w : importable w = true → run w = inr (tt, final w).
Proof.
  intros (H1 & H2 & H3)%importable_inv.
  unfold run, conf.
  cbv [mbind M_bind import_ ask get put raise].
  rewrite H1. cbv beta iota. rewrite H2. cbv beta iota. rewrite H3.
  vm_compute. reflexivity.
Qed.

Lemma run_spec w :
  run w = match first_missing w with
          | Some m => inl (ModuleNotFoundError m)
          | None => inr (tt, final w)
          end.
Proof.
  unfold run, conf, first_missing, required_modules. cbn [find].
  cbv [mbind M_bind import_ ask get put raise].
  destruct (bool_decide ("os" ∈ installed w)); cbn [negb]; [|reflexivity].
  destruct (bool_decide ("sys" ∈ installed w)); cbn [negb]; [|reflexivity].
  destruct (bool_decide ("sphinx_rtd_theme" ∈ installed w)); cbn [negb];
    [|reflexivity].
  vm_compute. reflexivity.
Qed.



Lemma config_importable w x :
  importable w = true → config w x = globals (final w) !! x.
Proof. intros Hw. unfold config. by rewrite run_importable. Qed.

Lemma final_same w w' :
  get_html_theme_path w = get_html_theme_path w' → final w = final w'.
Proof. intros H. unfold final. by rewrite H. Qed.

Lemma first_missing_same w w' :
  same_modules w w' = true → first_missing w = first_missing w'.
Proof.
  unfold same_modules, first_missing.
  induction required_modules as [|m ms IH]; [reflexivity|].
  cbn [forallb find]. intros [Hm Hms]%andb_true_iff.
  apply Bool.eqb_prop in Hm. rewrite Hm.
  destruct (bool_decide (m ∈ installed w')); cbn [negb]; [|reflexivity].
  by apply IH.
Qed.

Lemma same_env_refl w : same_env w w.
Proof.
  split; [|reflexivity]. unfold same_modules.
  apply forallb_forall. intros m _. apply Bool.eqb_reflx.
Qed.

Lemma run_same_env w w' : same_env w w' → run w = run w'.
Proof.
  intros [Hmods Hpath]. rewrite !run_spec.
  by rewrite (first_missing_same _ _ Hmods), (final_same _ _ Hpath).
Qed.

(** ** Values of the configuration variables *)

Lemma final_project w : globals (final w) !! "project" = Some (VStr "libmyrtx").
Proof. by_evaluation. Qed.

Lemma final_author w :
  globals (final w) !! "author" = Some (VStr "libmyrtx Contributors").
Proof. by_evaluation. Qed.

Lemma final_version w : globals (final w) !! "version" = Some (VStr "0.1.0").
Proof. by_evaluation. Qed.

Lemma final_release w : globals (final w) !! "release" = Some (VStr "0.1.0").
Proof. by_evaluation. Qed.

Lemma final_html_theme w :
  globals (final w) !! "html_theme" = Some (VStr "sphinx_rtd_theme").
Proof. by_evaluation. Qed.

Lemma final_html_theme_path w :
  globals (final w) !! "html_theme_path" = Some (VList [get_html_theme_path w]).
Proof. by_evaluation. Qed.



(** ** The claims *)

(** C1: each of the required metadata keys project, author, version and
    release is assigned a string that is not empty. *)
Theorem metadata_nonempty w :
  importable w = true →
  Forall (λ k, ∃ s, config w k = Some (VStr s) ∧ s ≠ EmptyString)
         required_metadata.
Proof.
  intros Hw. unfold required_metadata.
  repeat apply Forall_cons_2; [| | | |apply Forall_nil_2];
    rewrite config_importable by done.
  - eexists. split; [apply final_project|discriminate].
  - eexists. split; [apply final_author|discriminate].
  - eexists. split; [apply final_version|discriminate].
  - eexists. split; [apply final_release|discriminate].
Qed.

Lemma metadata_nonempty_witness :
  Forall (λ k, ∃ s, config w0 k = Some (VStr s) ∧ s ≠ EmptyString)
         required_metadata.
Proof. apply (metadata_nonempty w0). reflexivity. Defined.




(** C3: the theme-option dictionary has exactly the nine named options;
    each flag is a boolean, the button placement is a string, the
    navigation depth is an integer, so every value is a boolean, a
    string or an integer. *)
Theorem theme_options_shape w :
  importable w = true →
  ∃ items,
    config w "html_theme_options" = Some (VDict items) ∧
    Forall2 option_matches items theme_option_kinds ∧
    length items = 9%nat ∧
    NoDup (dict_keys items) ∧
    Forall (λ v, scalar_option v = true) (dict_values items) ∧
    ∃ depth, dict_get "navigation_depth" items = Some (VInt depth).
Proof.
  intros Hw. rewrite config_importable by done.
  eexists. split; [by_evaluation|].
  split.
  { unfold theme_option_kinds.
    repeat (constructor; [split; reflexivity|]). constructor. }
  split; [reflexivity|].
  split; [by apply (bool_decide_unpack _)|].
  split; [repeat constructor|].
  eexists. reflexivity.
Qed.

Lemma theme_options_shape_witness :
  ∃ items,
    config w0 "html_theme_options" = Some (VDict items) ∧
    Forall2 option_matches items theme_option_kinds ∧
    length items = 9%nat ∧
    NoDup (dict_keys items) ∧
    Forall (λ v, scalar_option v = true) (dict_values items) ∧
    ∃ depth, dict_get "navigation_depth" items = Some (VInt depth).
Proof. apply (theme_options_shape w0). reflexivity. Defined.

(** C4: breathe_projects maps a project identifier to the path of the
    XML output directory, breathe_default_project is a key of that
    mapping, and breathe_default_members is a pair of the flags for
    members and for undocumented members. *)
Theorem breathe_shape w :
  importable w = true →
  ∃ items proj path,
    config w "breathe_projects" = Some (VDict items) ∧
    Forall (λ v, is_str v = true) (dict_values items) ∧
    config w "breathe_default_project" = Some (VStr proj) ∧
    dict_get proj items = Some (VStr path) ∧
    path = "../doxygen_output/xml/" ∧
    config w "breathe_default_members" =
      Some (VTuple [VStr "members"; VStr "undoc-members"]).
Proof.
  intros Hw. rewrite !config_importable by done.
  do 3 eexists.
  split; [by_evaluation|].
  split; [repeat constructor|].
  split; [by_evaluation|].
  split; [reflexivity|].
  split; [reflexivity|by_evaluation].
Qed.

Lemma breathe_shape_witness :
  ∃ items proj path,
    config w0 "breathe_projects" = Some (VDict items) ∧
    Forall (λ v, is_str v = true) (dict_values items) ∧
    config w0 "breathe_default_project" = Some (VStr proj) ∧
    dict_get proj items = Some (VStr path) ∧
    path = "../doxygen_output/xml/" ∧
    config w0 "breathe_default_members" =
      Some (VTuple [VStr "members"; VStr "undoc-members"]).
Proof. apply (breathe_shape w0). reflexivity. Defined.

(** C8: version and release are the same string, 0.1.0. *)
Theorem version_equals_release w :
  importable w = true →
  config w "version" = Some (VStr "0.1.0") ∧
  config w "release" = Some (VStr "0.1.0") ∧
  config w "version" = config w "release".
Proof.
  intros Hw. rewrite !config_importable by done.
  rewrite final_version, final_release. done.
Qed.

Lemma version_equals_release_witness :
  config w0 "version" = Some (VStr "0.1.0") ∧
  config w0 "release" = Some (VStr "0.1.0") ∧
  config w0 "version" = config w0 "release".
Proof. apply (version_equals_release w0). reflexivity. Defined.

(** C9: the theme selected by html_theme, sphinx_rtd_theme, is one of
    the entries of extensions. *)
Theorem theme_is_extension w :
  importable w = true →
  ∃ theme exts,
    config w "html_theme" = Some (VStr theme) ∧
    theme = "sphinx_rtd_theme" ∧
    config w "extensions" = Some (VList exts) ∧
    VStr theme ∈ exts.
Proof.
  intros Hw. rewrite !config_importable by done.
  do 2 eexists.
  split; [apply final_html_theme|].
  split; [reflexivity|].
  split; [by_evaluation|].
  do 7 apply list_elem_of_further. apply list_elem_of_here.
Qed.

Lemma theme_is_extension_witness :
  ∃ theme exts,
    config w0 "html_theme" = Some (VStr theme) ∧
    theme = "sphinx_rtd_theme" ∧
    config w0 "extensions" = Some (VList exts) ∧
    VStr theme ∈ exts.
Proof. apply (theme_is_extension w0). reflexivity. Defined.



(** * Further properties of the module *)

(** ** Failure behaviour of the imports *)




(** ** Execution from a prepared namespace *)

Lemma conf_from_state w st0 :
  importable w = true →
  ∃ st', conf w st0 = inr (tt, st') ∧
         globals st' = globals (final w) ∪ globals st0 ∧
         trace st' = (trace st0 ++ trace (final w))%list.
Proof.
  intros (H1 & H2 & H3)%importable_inv.
  destruct st0 as [g0 t0]. eexists. split.
  - unfold conf.
    cbv [mbind M_bind mret M_ret import_ assign lit call_attr ask get put raise
         bind_name log globals trace].
    rewrite H1. cbv beta iota. rewrite H2. cbv beta iota. rewrite H3.
    cbv beta iota.
    rewrite !lookup_insert_ne by done. rewrite lookup_insert_eq.
    cbv [module_attr]. simpl (String.eqb _ _ && String.eqb _ _).
    cbv beta iota. reflexivity.
  - cbn [globals trace]. split.
    + remember (globals (final w) ∪ g0) as rhs eqn:Hrhs.
      rewrite <- (left_id_L ∅ (∪) g0).
      rewrite !insert_union_l. subst rhs. f_equal; symmetry; by_evaluation.
    + rewrite <- !app_assoc. f_equal; symmetry; by_evaluation.
Qed.



(** X4: executing the script a second time over the namespace left by
    the first changes no binding. *)
Theorem conf_rerun w :
  importable w = true →
  ∃ st st2,
    run w = inr (tt, st) ∧
    run_twice w = inr (tt, st2) ∧
    globals st2 = globals st.
Proof.
  intros Hw. destruct (conf_from_state w (final w) Hw) as (st2 & Hrun & Hg & _).
  exists (final w), st2. split; [by apply run_importable|].
  split.
  - unfold run_twice, mbind, M_bind. change (conf w init) with (run w).
    by rewrite run_importable.
  - by rewrite Hg, (idemp_L (∪)).
Qed.

Lemma conf_rerun_witness :
  ∃ st st2,
    run w0 = inr (tt, st) ∧
    run_twice w0 = inr (tt, st2) ∧
    globals st2 = globals st.
Proof. apply (conf_rerun w0). reflexivity. Defined.

(** ** Dependence on the environment *)

(** X5: among environments where the imports succeed, two give the same
    configuration exactly when sphinx_rtd_theme.get_html_theme_path()
    returns the same value in both: the theme directory is the one thing
    the configuration takes from its environment, and it does take it. *)
Theorem config_tracks_theme_path w w' :
  importable w = true → importable w' = true →
  (∀ x, config w x = config w' x) ↔
  get_html_theme_path w = get_html_theme_path w'.
Proof.
  intros Hw Hw'. split.
  - intros H. specialize (H "html_theme_path").
    rewrite !config_importable, !final_html_theme_path in H by done.
    congruence.
  - intros H x. rewrite !config_importable by done.
    by rewrite (final_same _ _ H).
Qed.

Lemma config_tracks_theme_path_witness :
  (∀ x, config w0 x = config w0' x) ↔
  get_html_theme_path w0 = get_html_theme_path w0'.
Proof. apply (config_tracks_theme_path w0 w0'); reflexivity. Defined.

(** ** The names the module defines *)



(** X7: the extension list consists of nine strings, none empty and no
    two equal, so no extension is requested twice. *)
Theorem extensions_distinct w :
  importable w = true →
  ∃ names,
    config w "extensions" = Some (VList (VStr <$> names)) ∧
    length names = 9%nat ∧
    NoDup names ∧
    Forall (λ s, s ≠ EmptyString) names.
Proof.
  intros Hw. rewrite config_importable by done.
  eexists [_; _; _; _; _; _; _; _; _].
  split; [by_evaluation|].
  split; [reflexivity|].
  split; [by apply (bool_decide_unpack _)|].
  repeat constructor; discriminate.
Qed.

Lemma extensions_distinct_witness :
  ∃ names,
    config w0 "extensions" = Some (VList (VStr <$> names)) ∧
    length names = 9%nat ∧
    NoDup names ∧
    Forall (λ s, s ≠ EmptyString) names.
Proof. apply (extensions_distinct w0). reflexivity. Defined.

(** X8: the Breathe project table has a single entry, and its key, the
    default Breathe project and the Sphinx project name are one and the
    same string. *)
Theorem breathe_project_is_project w :
  importable w = true →
  ∃ name path,
    config w "project" = Some (VStr name) ∧
    config w "breathe_default_project" = Some (VStr name) ∧
    config w "breathe_projects" = Some (VDict [(name, VStr path)]).
Proof.
  intros Hw. rewrite !config_importable by done.
  do 2 eexists. split; [apply final_project|]. split; by_evaluation.
Qed.

Lemma breathe_project_is_project_witness :
  ∃ name path,
    config w0 "project" = Some (VStr name) ∧
    config w0 "breathe_default_project" = Some (VStr name) ∧
    config w0 "breathe_projects" = Some (VDict [(name, VStr path)]).
Proof. apply (breathe_project_is_project w0). reflexivity. Defined.
